(** * gunicorn.conf.py: server configuration and lifecycle hooks

    A shallow embedding of [app/gunicorn.conf.py].  The file is a Python
    module that the application server executes once at start-up: every
    top-level assignment becomes a configuration option, and the three
    top-level functions are lifecycle callbacks.

    The module leans on a few pieces of the Python runtime
    ([os.getenv], [multiprocessing.cpu_count], the built-in [int]); they
    are modelled first, in [Module Python], from their documented
    behaviour.  The hooks call a method of an object they are handed;
    that call is modelled as a visible request in [Module Logging]. *)

From Stdlib Require Import ZArith NArith Ascii String Lia.
From stdpp Require Import base option list gmap strings pretty.

Local Open Scope Z_scope.

(** ** The Python runtime the module runs on *)

Module Python.

(** The exceptions that can leave the module body. *)
Inductive PyExc : Type :=
| NotImplementedError
| ValueError.

(** Outcome of evaluating an expression or running a statement list. *)
Inductive outcome (A : Type) : Type :=
| Returns (a : A)
| Raises (e : PyExc).
Arguments Returns {A} a.
Arguments Raises {A} e.

#[global] Instance outcome_ret : MRet outcome := @Returns.
#[global] Instance outcome_bind : MBind outcome := fun A B f m =>
  match m with
  | Returns a => f a
  | Raises e => Raises e
  end.

Definition raised {A} (m : outcome A) : Prop :=
  match m with
  | Returns _ => False
  | Raises _ => True
  end.

(** What the interpreter and the machine contribute to the run.
    [os_cpu_count] is [os.cpu_count()]: the number of logical CPUs, at
    least one, or nothing when it cannot be determined.
    [int_max_str_digits] is [sys.get_int_max_str_digits()], the cap on
    the number of digits [int] converts from text (4300 unless
    reconfigured); [0] switches the cap off, which is also the
    behaviour of interpreters that predate it. *)
Record Host : Type := {
  os_cpu_count : option positive;
  int_max_str_digits : N;
}.

(** [multiprocessing.cpu_count()]:
<<
    num = os.cpu_count()
    if num is None:
        raise NotImplementedError('cannot determine number of cpus')
    else:
        return num
>> *)
Definition cpu_count (h : Host) : outcome Z :=
  match os_cpu_count h with
  | None => Raises NotImplementedError
  | Some num => Returns (Z.pos num)
  end.

(** The two kinds of value that reach [int] in this module: the text of
    an environment variable, or an integer default. *)
Inductive PyObj : Type :=
| PyStr (s : string)
| PyInt (z : Z).

(** [os.getenv(key, default)] is [os.environ.get(key, default)]. *)
Definition getenv (environ : gmap string string) (key : string)
    (default : PyObj) : PyObj :=
  match environ !! key with
  | Some value => PyStr value
  | None => default
  end.

(** *** [int] on text, base ten

    A character of a [str] is modelled by the [ascii] with the same
    code point, so the model covers text over U+0000..U+00FF. *)

Definition ord (c : ascii) : Z := Z.of_N (N_of_ascii c).

(** White space that [int] strips: the ASCII set of [Py_ISSPACE]
    (tab, line feed, vertical tab, form feed, carriage return, space)
    and, above U+007E, the characters Unicode classes as white space,
    NEL (U+0085) and NBSP (U+00A0) in this range.  The separators
    U+001C..U+001F are not stripped by [int]. *)
Definition isspace (c : ascii) : bool :=
  let n := ord c in
  ((9 <=? n) && (n <=? 13)) || (n =? 32) || (n =? 133) || (n =? 160).

Definition digit_value (c : ascii) : option Z :=
  let n := ord c in
  if (48 <=? n) && (n <=? 57) then Some (n - 48) else None.

Definition is_underscore (c : ascii) : bool := ord c =? 95.

Fixpoint skip_space (s : string) : string :=
  match s with
  | String c s' => if isspace c then skip_space s' else s
  | EmptyString => s
  end.

(** The run of digits and underscores in front of [s].  [acc] is the
    value read so far, [digits] the number of digits seen and
    [prev_us] tells whether the previous character was an underscore.
    Two underscores in a row, or one at the end of the run, are
    refused.  Yields the value, the number of digits and the rest. *)
Fixpoint scan_digits (s : string) (acc : Z) (digits : N) (prev_us : bool)
    : option (Z * N * string) :=
  match s with
  | String c s' =>
      if is_underscore c then
        if prev_us then None else scan_digits s' acc digits true
      else
        match digit_value c with
        | Some d => scan_digits s' (10 * acc + d) (digits + 1)%N false
        | None => if prev_us then None else Some (acc, digits, s)
        end
  | EmptyString => if prev_us then None else Some (acc, digits, s)
  end.

(** The length guard of the conversion: beyond 640 digits the
    interpreter compares with the configured cap, when there is one. *)
Definition exceeds_limit (h : Host) (digits : N) : bool :=
  ((640 <? digits) && (0 <? int_max_str_digits h)
   && (int_max_str_digits h <? digits))%N.

Definition split_sign (s : string) : Z * string :=
  match s with
  | String c s' =>
      if ord c =? 43 then (1, s')
      else if ord c =? 45 then (-1, s')
      else (1, s)
  | EmptyString => (1, s)
  end.

Definition starts_with_underscore (s : string) : bool :=
  match s with
  | String c _ => is_underscore c
  | EmptyString => false
  end.

(** [int(s)] for a [str]: optional white space, an optional sign
    directly followed by digits with single underscores between them,
    optional white space, and nothing else. *)
Definition int_of_str (h : Host) (s : string) : outcome Z :=
  let '(sign, body) := split_sign (skip_space s) in
  if starts_with_underscore body then Raises ValueError
  else
    match scan_digits body 0 0%N false with
    | None => Raises ValueError
    | Some (v, digits, rest) =>
        if (digits =? 0)%N then Raises ValueError
        else if exceeds_limit h digits then Raises ValueError
        else
          match skip_space rest with
          | EmptyString => Returns (sign * v)
          | String _ _ => Raises ValueError
          end
    end.

(** The built-in [int(x)]: an integer is returned as it is, text is
    parsed. *)
Definition int (h : Host) (x : PyObj) : outcome Z :=
  match x with
  | PyInt z => Returns z
  | PyStr s => int_of_str h s
  end.

End Python.

Import Python.

(** ** Objects with a logger, and calls to it *)

Module Logging.

(** The severities of Python's [logging]; a logger has one method per
    severity ([debug], [info], [warning], [error], [critical]). *)
Inductive Level : Type := DEBUG | INFO | WARNING | ERROR | CRITICAL.

(** One call [lg.<level>(message)]: a request for one log line. *)
Record LogCall (L : Type) : Type := {
  logger : L;
  levelname : Level;
  message : string;
}.
Arguments logger {L} _.
Arguments levelname {L} _.
Arguments message {L} _.

(** A callback body: it returns a value, or calls a logger and goes
    on.  What the call does is up to the logger it is made on; the body
    does not look at what the call returns. *)
Inductive Hook (L A : Type) : Type :=
| Done (a : A)
| Call (c : LogCall L) (k : Hook L A).
Arguments Done {L A} a.
Arguments Call {L A} c k.

(** The calls a body makes, in order. *)
Fixpoint calls {L A} (p : Hook L A) : list (LogCall L) :=
  match p with
  | Done _ => []
  | Call c k => c :: calls k
  end.

(** The value a body returns once its calls have been accepted. *)
Fixpoint value {L A} (p : Hook L A) : A :=
  match p with
  | Done a => a
  | Call _ k => value k
  end.

(** The behaviour of the loggers: given a call and the state of the
    logging system, the call is refused with an error or accepted with
    a new state. *)
Definition LoggerImpl (L S E : Type) : Type := LogCall L -> S -> E + S.

(** Running a body: an error of a call propagates to the caller. *)
Fixpoint run {L S E A} (impl : LoggerImpl L S E) (p : Hook L A) (s : S)
    : E + (A * S) :=
  match p with
  | Done a => inr (a, s)
  | Call c k =>
      match impl c s with
      | inl e => inl e
      | inr s' => run impl k s'
      end
  end.

(** A logger that writes every call down as one line. *)
Definition recorder {L E} : LoggerImpl L (list (LogCall L)) E :=
  fun c written => inr (written ++ [c]).

(** A logger that refuses every call. *)
Definition refuser {L S E} (e : E) : LoggerImpl L S E :=
  fun _ _ => inl e.

(** [lg.info(msg)] as a statement; its value is dropped. *)
Definition info {L} (lg : L) (msg : string) : Hook L unit :=
  Call {| logger := lg; levelname := INFO; message := msg |} (Done tt).

(** The logger accepts an info call in state [s], whatever the text. *)
Definition accepts_info {L S E} (impl : LoggerImpl L S E) (lg : L) (s : S)
    : Prop :=
  forall msg, exists s',
    impl {| logger := lg; levelname := INFO; message := msg |} s = inr s'.

(** Objects that carry a [log] attribute (the server's arbiter and its
    workers). *)
Class HasLog (O L : Type) : Type := log : O -> L.

End Logging.

Import Logging.

(** ** The access-log format *)

Module AccessLog.

Local Open Scope string_scope.

(** Where a log goes.  A destination ["-"] selects a stream: standard
    output for the access log, standard error for the error log. *)
Inductive Sink : Type :=
| Stdout
| Stderr
| LogFile (path : string).

Definition access_sink (accesslog : string) : Sink :=
  if decide (accesslog = "-") then Stdout else LogFile accesslog.

Definition error_sink (errorlog : string) : Sink :=
  if decide (errorlog = "-") then Stderr else LogFile errorlog.

(** The one-letter identifiers the server fills in an access-log line. *)
Inductive Atom : Type :=
| RemoteAddress      (* h *)
| RemoteLogname      (* l, always - *)
| UserName           (* u *)
| RequestDate        (* t *)
| RequestLine        (* r, e.g. GET / HTTP/1.1 *)
| RequestMethod      (* m *)
| UrlPath            (* U *)
| QueryString        (* q *)
| Protocol           (* H *)
| Status             (* s *)
| ResponseLength     (* B *)
| ResponseLengthCLF  (* b *)
| Referer            (* f *)
| UserAgent          (* a *)
| RequestSeconds     (* T *)
| RequestMillis      (* M *)
| RequestMicros      (* D *)
| RequestDecimal     (* L *)
| ProcessId.         (* p *)

Definition atom_of_key (k : string) : option Atom :=
  if decide (k = "h") then Some RemoteAddress
  else if decide (k = "l") then Some RemoteLogname
  else if decide (k = "u") then Some UserName
  else if decide (k = "t") then Some RequestDate
  else if decide (k = "r") then Some RequestLine
  else if decide (k = "m") then Some RequestMethod
  else if decide (k = "U") then Some UrlPath
  else if decide (k = "q") then Some QueryString
  else if decide (k = "H") then Some Protocol
  else if decide (k = "s") then Some Status
  else if decide (k = "B") then Some ResponseLength
  else if decide (k = "b") then Some ResponseLengthCLF
  else if decide (k = "f") then Some Referer
  else if decide (k = "a") then Some UserAgent
  else if decide (k = "T") then Some RequestSeconds
  else if decide (k = "M") then Some RequestMillis
  else if decide (k = "D") then Some RequestMicros
  else if decide (k = "L") then Some RequestDecimal
  else if decide (k = "p") then Some ProcessId
  else None.

(** Position of the scanner in a printf-style format: in plain text,
    just behind a [%], inside the parentheses of a mapping key (with
    the key read so far and the nesting depth), or in the flags, width,
    precision and length that precede the conversion type. *)
Inductive Mode : Type :=
| Text
| Percent
| Key (acc : string) (depth : nat)
| Spec.

Definition is_spec_char (c : ascii) : bool :=
  let n := ord c in
  ((n =? 35) || (n =? 48) || (n =? 45) || (n =? 32) || (n =? 43)
   || ((48 <=? n) && (n <=? 57)) || (n =? 46) || (n =? 42)
   || (n =? 104) || (n =? 108) || (n =? 76))%Z.

Definition is_char (code : Z) (c : ascii) : bool := (ord c =? code)%Z.

Definition snoc (acc : string) (c : ascii) : string :=
  acc +:+ String c EmptyString.

Definition after_spec (c : ascii) : Mode :=
  if is_spec_char c then Spec else Text.

(** The mapping keys of the conversions [%(key)...] of a format, from
    left to right. *)
Fixpoint mapping_keys_from (m : Mode) (s : string) : list string :=
  match s with
  | EmptyString => []
  | String c s' =>
      match m with
      | Text =>
          mapping_keys_from (if is_char 37 c then Percent else Text) s'
      | Percent =>
          if is_char 40 c then mapping_keys_from (Key EmptyString 0) s'
          else mapping_keys_from (after_spec c) s'
      | Key acc depth =>
          if is_char 41 c then
            match depth with
            | O => acc :: mapping_keys_from Spec s'
            | S d => mapping_keys_from (Key (snoc acc c) d) s'
            end
          else if is_char 40 c then
            mapping_keys_from (Key (snoc acc c) (S depth)) s'
          else mapping_keys_from (Key (snoc acc c) depth) s'
      | Spec => mapping_keys_from (after_spec c) s'
      end
  end.

Definition mapping_keys (fmt : string) : list string :=
  mapping_keys_from Text fmt.

Definition atoms (fmt : string) : list (option Atom) :=
  atom_of_key <$> mapping_keys fmt.

End AccessLog.

(** ** The module [gunicorn.conf] *)

(** The options the module defines, one field per top-level name. *)
Record ServerConfig : Type := {
  bind : string;
  backlog : Z;
  workers : Z;
  worker_class : string;
  threads : Z;
  worker_connections : Z;
  timeout : Z;
  keepalive : Z;
  limit_request_line : Z;
  limit_request_fields : Z;
  limit_request_field_size : Z;
  proc_name : string;
  daemon : bool;
  pidfile : option string;
  umask : Z;
  user : option string;
  group : option string;
  tmp_upload_dir : option string;
  accesslog : string;
  errorlog : string;
  loglevel : string;
  access_log_format : string;
}.

Section Module_body.

Local Open Scope string_scope.

(** The double-quote character, as a one-character text. *)
Definition dq : string := String (ascii_of_N 34) EmptyString.

(** Executing the module body, top to bottom, on host [h] with the
    process environment [environ].  The default of [GUNICORN_WORKERS]
    is an argument of [os.getenv], so it is computed before the
    environment is looked at. *)
Definition load (h : Host) (environ : gmap string string)
    : outcome ServerConfig :=
  let bind := "0.0.0.0:5000" in
  let backlog := 2048 in
  ncpu ← cpu_count h;
  workers ← int h (getenv environ "GUNICORN_WORKERS" (PyInt (ncpu * 2 + 1)));
  let worker_class := "gthread" in
  threads ← int h (getenv environ "GUNICORN_THREADS" (PyInt 2));
  let worker_connections := 1000 in
  let timeout := 30 in
  let keepalive := 2 in
  let limit_request_line := 4096 in
  let limit_request_fields := 100 in
  let limit_request_field_size := 8190 in
  let proc_name := "fastfood_gunicorn" in
  let daemon := false in
  let pidfile := None in
  let umask := 0 in
  let user := None in
  let group := None in
  let tmp_upload_dir := None in
  let accesslog := "-" in
  let errorlog := "-" in
  let loglevel := "info" in
  let access_log_format :=
    "%(h)s %(l)s %(u)s %(t)s " +:+ dq +:+ "%(r)s" +:+ dq
    +:+ " %(s)s %(b)s " +:+ dq +:+ "%(f)s" +:+ dq
    +:+ " " +:+ dq +:+ "%(a)s" +:+ dq in
  mret {|
    bind := bind; backlog := backlog; workers := workers;
    worker_class := worker_class; threads := threads;
    worker_connections := worker_connections; timeout := timeout;
    keepalive := keepalive; limit_request_line := limit_request_line;
    limit_request_fields := limit_request_fields;
    limit_request_field_size := limit_request_field_size;
    proc_name := proc_name; daemon := daemon; pidfile := pidfile;
    umask := umask; user := user; group := group;
    tmp_upload_dir := tmp_upload_dir; accesslog := accesslog;
    errorlog := errorlog; loglevel := loglevel;
    access_log_format := access_log_format |}.

Context {Server Worker L : Type}.
Context `{!HasLog Server L, !HasLog Worker L}.

Definition when_ready (server : Server) : Hook L unit :=
  info (log server) "FastFood Ordering System is ready to serve requests".

Definition worker_int (worker : Worker) : Hook L unit :=
  info (log worker) "Worker received INT or QUIT signal".

Definition worker_abort (worker : Worker) : Hook L unit :=
  info (log worker) "Worker received SIGABRT signal".

End Module_body.

(** ** Concrete hosts, environments and objects *)

Section Samples.

Local Open Scope string_scope.

(** A four-CPU machine running an interpreter with the usual cap. *)
Definition host4 : Host :=
  {| os_cpu_count := Some 4%positive; int_max_str_digits := 4300 |}.

(** A machine whose CPU count cannot be determined. *)
Definition host_unknown_cpus : Host :=
  {| os_cpu_count := None; int_max_str_digits := 4300 |}.

Definition env_4_8 : gmap string string :=
  {[ "GUNICORN_WORKERS" := "4"; "GUNICORN_THREADS" := "8" ]}.

Definition env_threads_0 : gmap string string :=
  {[ "GUNICORN_THREADS" := "0" ]}.

(** The server's arbiter and a worker, each with the name of its
    logger. *)
Record Arbiter : Type := { arbiter_pid : Z; arbiter_log : string }.
Record WorkerProcess : Type := { worker_pid : Z; worker_log : string }.

#[global] Instance arbiter_has_log : HasLog Arbiter string := arbiter_log.
#[global] Instance worker_has_log : HasLog WorkerProcess string := worker_log.

Definition arbiter1 : Arbiter :=
  {| arbiter_pid := 1; arbiter_log := "gunicorn.error" |}.
Definition worker7 : WorkerProcess :=
  {| worker_pid := 7; worker_log := "gunicorn.error" |}.

End Samples.

(** ** Vocabulary of the statements *)

Section Vocabulary.

Local Open Scope string_scope.

(** The text of a provided variable is one [int] refuses. *)
Definition rejected (h : Host) (environ : gmap string string)
    (key : string) : Prop :=
  exists value, environ !! key = Some value /\ raised (int_of_str h value).

(** Every provided value of the variable that [int] accepts denotes a
    number above zero. *)
Definition positive_if_set (h : Host) (environ : gmap string string)
    (key : string) : Prop :=
  forall value z,
    environ !! key = Some value -> int_of_str h value = Returns z -> 0 < z.

(** The options that do not come from the environment. *)
Definition constant_options (cfg : ServerConfig) : Prop :=
  bind cfg = "0.0.0.0:5000"
  /\ backlog cfg = 2048
  /\ worker_class cfg = "gthread"
  /\ worker_connections cfg = 1000
  /\ timeout cfg = 30
  /\ keepalive cfg = 2
  /\ limit_request_line cfg = 4096
  /\ limit_request_fields cfg = 100
  /\ limit_request_field_size cfg = 8190
  /\ proc_name cfg = "fastfood_gunicorn"
  /\ daemon cfg = false
  /\ pidfile cfg = None
  /\ umask cfg = 0
  /\ user cfg = None
  /\ group cfg = None
  /\ tmp_upload_dir cfg = None
  /\ accesslog cfg = "-"
  /\ errorlog cfg = "-"
  /\ loglevel cfg = "info"
  /\ access_log_format cfg =
       "%(h)s %(l)s %(u)s %(t)s " +:+ dq +:+ "%(r)s" +:+ dq
       +:+ " %(s)s %(b)s " +:+ dq +:+ "%(f)s" +:+ dq
       +:+ " " +:+ dq +:+ "%(a)s" +:+ dq.

End Vocabulary.

(** ** Blank text, and a logging system with one book per logger *)

Section More_vocabulary.

(** The text is empty or holds nothing but white space. *)
Fixpoint all_space (s : string) : bool :=
  match s with
  | EmptyString => true
  | String c s' => isspace c && all_space s'
  end.

Context {L : Type} `{Countable L}.

(** A logging system that keeps, for every logger, the lines written
    through it: a call adds one line to the book of the logger it is
    made on. *)
Definition keeper {E : Type}
    : LoggerImpl L (gmap L (list (Level * string))) E :=
  fun c books =>
    inr (<[logger c :=
             (default [] (books !! logger c)
              ++ [(levelname c, message c)])%list]> books).

End More_vocabulary.

(** ** The runtime model behaves like the interpreter *)

Section Runtime_facts.

Local Open Scope string_scope.

(** [int] on the defaults is the identity and cannot fail. *)
Lemma int_PyInt (h : Host) (z : Z) : int h (PyInt z) = Returns z.
Proof. reflexivity. Qed.

Lemma getenv_set environ key value default :
  environ !! key = Some value -> getenv environ key default = PyStr value.
Proof. intros Hk. unfold getenv. by rewrite Hk. Qed.

Lemma getenv_unset environ key default :
  environ !! key = None -> getenv environ key default = default.
Proof. intros Hk. unfold getenv. by rewrite Hk. Qed.

(** Literals the interpreter accepts. *)
Example int_plain : int_of_str host4 "4" = Returns 4.
Proof. reflexivity. Qed.

Example int_padded_signed : int_of_str host4 "  -12 " = Returns (-12).
Proof. reflexivity. Qed.

Example int_grouped : int_of_str host4 "+1_000" = Returns 1000.
Proof. reflexivity. Qed.

Example int_leading_zeros : int_of_str host4 "0010" = Returns 10.
Proof. reflexivity. Qed.

(** Literals it refuses. *)
Example int_empty : int_of_str host4 EmptyString = Raises ValueError.
Proof. reflexivity. Qed.

Example int_fraction : int_of_str host4 "4.5" = Raises ValueError.
Proof. reflexivity. Qed.

Example int_double_underscore : int_of_str host4 "1__0" = Raises ValueError.
Proof. reflexivity. Qed.

Example int_sign_then_space : int_of_str host4 "- 1" = Raises ValueError.
Proof. reflexivity. Qed.

Example int_word : int_of_str host4 "four" = Raises ValueError.
Proof. reflexivity. Qed.

(** The only exception [int] raises is [ValueError]. *)
Lemma int_of_str_raises (h : Host) (s : string) (e : PyExc) :
  int_of_str h s = Raises e -> e = ValueError.
Proof.
  unfold int_of_str. destruct (split_sign (skip_space s)) as [sign body].
  destruct (starts_with_underscore body); [congruence |].
  destruct (scan_digits body 0 0%N false) as [[[v digits] rest] |];
    [| congruence].
  destruct (digits =? 0)%N; [congruence |].
  destruct (exceeds_limit h digits); [congruence |].
  destruct (skip_space rest); congruence.
Qed.

(** [outcome] is decided by its constructor. *)
Lemma raised_Raises {A} (m : outcome A) :
  raised m <-> exists e, m = Raises e.
Proof.
  destruct m as [a | e]; simpl; split.
  - intros [].
  - intros [e He]. discriminate.
  - eauto.
  - done.
Qed.

Lemma not_raised_Returns {A} (m : outcome A) :
  ~ raised m <-> exists a, m = Returns a.
Proof.
  destruct m as [a | e]; simpl.
  - split; [eauto | tauto].
  - split; [tauto | intros [a Ha]; discriminate].
Qed.

End Runtime_facts.

(** ** The loader *)

Section Loader.

Local Open Scope string_scope.

Variable h : Host.
Variable environ : gmap string string.

(** The body runs three fallible steps in order; everything after them
    is assignment of constants. *)
Lemma load_returns (ncpu w t : Z) :
  cpu_count h = Returns ncpu ->
  int h (getenv environ "GUNICORN_WORKERS" (PyInt (ncpu * 2 + 1)))
    = Returns w ->
  int h (getenv environ "GUNICORN_THREADS" (PyInt 2)) = Returns t ->
  exists cfg, load h environ = Returns cfg
              /\ workers cfg = w /\ threads cfg = t.
Proof.
  intros Hc Hw Ht. unfold load. rewrite Hc. simpl. rewrite Hw. simpl.
  rewrite Ht. simpl. eexists. split; [reflexivity |]. split; reflexivity.
Qed.

Lemma load_inv (cfg : ServerConfig) :
  load h environ = Returns cfg ->
  exists ncpu,
    cpu_count h = Returns ncpu
    /\ int h (getenv environ "GUNICORN_WORKERS" (PyInt (ncpu * 2 + 1)))
       = Returns (workers cfg)
    /\ int h (getenv environ "GUNICORN_THREADS" (PyInt 2))
       = Returns (threads cfg)
    /\ constant_options cfg.
Proof.
  unfold load.
  destruct (cpu_count h) as [ncpu | e]; simpl; [| discriminate].
  destruct (int h (getenv environ "GUNICORN_WORKERS" _)) as [w | e] eqn:Hw;
    simpl; [| discriminate].
  destruct (int h (getenv environ "GUNICORN_THREADS" _)) as [t | e] eqn:Ht;
    simpl; [| discriminate].
  intros [= <-]. exists ncpu. simpl.
  unfold constant_options. simpl.
  repeat split; first [exact Hw | exact Ht | reflexivity].
Qed.

(** The first step that raises decides the outcome; the default handed
    to [os.getenv] plays no part in it. *)
Lemma load_raises (z : Z) :
  raised (load h environ) <->
    raised (cpu_count h)
    \/ raised (int h (getenv environ "GUNICORN_WORKERS" (PyInt z)))
    \/ raised (int h (getenv environ "GUNICORN_THREADS" (PyInt 2))).
Proof.
  unfold load, getenv.
  destruct (cpu_count h) as [ncpu | e]; simpl; [| tauto].
  destruct (environ !! "GUNICORN_WORKERS") as [vw |]; simpl.
  - destruct (int_of_str h vw) as [w | e]; simpl; [| tauto].
    destruct (environ !! "GUNICORN_THREADS") as [vt |]; simpl.
    + destruct (int_of_str h vt) as [t | e]; simpl; tauto.
    + tauto.
  - destruct (environ !! "GUNICORN_THREADS") as [vt |]; simpl.
    + destruct (int_of_str h vt) as [t | e]; simpl; tauto.
    + tauto.
Qed.

Lemma raised_cpu_count : raised (cpu_count h) <-> os_cpu_count h = None.
Proof.
  unfold cpu_count. destruct (os_cpu_count h); simpl; split;
    intros; try done.
Qed.

Lemma raised_int_getenv (key : string) (z : Z) :
  raised (int h (getenv environ key (PyInt z))) <-> rejected h environ key.
Proof.
  unfold rejected, getenv. destruct (environ !! key) as [v |]; simpl.
  - split; [eauto | intros (? & [= <-] & ?); done].
  - split; [done | intros (? & ? & _); discriminate].
Qed.

End Loader.

(** ** Worker and thread counts *)

Section Counts.

Local Open Scope string_scope.

(** C1: when neither GUNICORN_WORKERS nor GUNICORN_THREADS is set, the
    loaded configuration has workers equal to twice the detected CPU
    count plus one, and threads equal to 2. *)
Theorem load_defaults (h : Host) (environ : gmap string string)
    (ncpus : positive) :
  os_cpu_count h = Some ncpus ->
  environ !! "GUNICORN_WORKERS" = None ->
  environ !! "GUNICORN_THREADS" = None ->
  exists cfg, load h environ = Returns cfg
              /\ workers cfg = 2 * Z.pos ncpus + 1 /\ threads cfg = 2.
Proof.
  intros Hc Hw Ht.
  destruct (load_returns h environ (Z.pos ncpus) (Z.pos ncpus * 2 + 1) 2)
    as (cfg & Hload & Hwk & Hth).
  - unfold cpu_count. by rewrite Hc.
  - by rewrite (getenv_unset _ _ _ Hw).
  - by rewrite (getenv_unset _ _ _ Ht).
  - exists cfg. split; [exact Hload |]. split; [lia | exact Hth].
Qed.

Lemma load_defaults_witness :
  exists cfg, load host4 ∅ = Returns cfg
              /\ workers cfg = 9 /\ threads cfg = 2.
Proof. apply (load_defaults host4 ∅ 4%positive); reflexivity. Defined.

(** C2, on a host whose CPU count can be determined: with
    GUNICORN_WORKERS and GUNICORN_THREADS set to texts that [int]
    converts, workers and threads are the converted integers; for "4"
    and "8" they are 4 and 8. *)
Theorem load_overrides (h : Host) (environ : gmap string string)
    (ncpus : positive) (vw vt : string) (w t : Z) :
  os_cpu_count h = Some ncpus ->
  environ !! "GUNICORN_WORKERS" = Some vw ->
  environ !! "GUNICORN_THREADS" = Some vt ->
  int_of_str h vw = Returns w ->
  int_of_str h vt = Returns t ->
  exists cfg, load h environ = Returns cfg
              /\ workers cfg = w /\ threads cfg = t.
Proof.
  intros Hc Hw Ht Hiw Hit.
  apply (load_returns h environ (Z.pos ncpus)).
  - unfold cpu_count. by rewrite Hc.
  - by rewrite (getenv_set _ _ _ _ Hw).
  - by rewrite (getenv_set _ _ _ _ Ht).
Qed.

Lemma load_overrides_witness :
  exists cfg, load host4 env_4_8 = Returns cfg
              /\ workers cfg = 4 /\ threads cfg = 8.
Proof.
  apply (load_overrides host4 env_4_8 4%positive "4" "8" 4 8);
    reflexivity.
Defined.

(** C2 as stated fails where the CPU count is unknown: the default of
    GUNICORN_WORKERS is computed although the variable is set, and
    computing it raises. *)
Lemma load_overrides_unknown_cpus :
  load host_unknown_cpus env_4_8 = Raises NotImplementedError
  /\ ~ exists cfg, load host_unknown_cpus env_4_8 = Returns cfg
                   /\ workers cfg = 4 /\ threads cfg = 8.
Proof.
  split; [reflexivity |]. intros (cfg & Hload & _).
  vm_compute in Hload. discriminate.
Qed.

(** C3, amended: a loaded configuration has worker and thread counts
    above zero exactly when each provided GUNICORN_WORKERS and
    GUNICORN_THREADS value denotes an integer above zero; the defaults
    are above zero, and the loader checks no bound. *)
Theorem counts_positive_iff (h : Host) (environ : gmap string string)
    (cfg : ServerConfig) :
  load h environ = Returns cfg ->
  (0 < workers cfg /\ 0 < threads cfg) <->
    (positive_if_set h environ "GUNICORN_WORKERS"
     /\ positive_if_set h environ "GUNICORN_THREADS").
Proof.
  intros Hload.
  destruct (load_inv h environ cfg Hload) as (ncpu & Hc & Hw & Ht & _).
  assert (Hncpu : 0 < ncpu).
  { unfold cpu_count in Hc. destruct (os_cpu_count h); [| discriminate].
    injection Hc as <-. lia. }
  assert (HW : 0 < workers cfg <->
               positive_if_set h environ "GUNICORN_WORKERS").
  { unfold positive_if_set, getenv in *.
    destruct (environ !! "GUNICORN_WORKERS") as [vw |]; simpl in Hw.
    - split.
      + intros Hpos value z [= <-] Hz. rewrite Hw in Hz.
        injection Hz as <-. exact Hpos.
      + intros Hall. by apply (Hall vw).
    - injection Hw as <-. split; [discriminate | lia]. }
  assert (HT : 0 < threads cfg <->
               positive_if_set h environ "GUNICORN_THREADS").
  { unfold positive_if_set, getenv in *.
    destruct (environ !! "GUNICORN_THREADS") as [vt |]; simpl in Ht.
    - split.
      + intros Hpos value z [= <-] Hz. rewrite Ht in Hz.
        injection Hz as <-. exact Hpos.
      + intros Hall. by apply (Hall vt).
    - injection Ht as <-. split; [discriminate | lia]. }
  tauto.
Qed.

Lemma counts_positive_iff_witness :
  exists cfg, load host4 env_4_8 = Returns cfg
    /\ ((0 < workers cfg /\ 0 < threads cfg) <->
        (positive_if_set host4 env_4_8 "GUNICORN_WORKERS"
         /\ positive_if_set host4 env_4_8 "GUNICORN_THREADS")).
Proof.
  eexists. split; [reflexivity |].
  apply (counts_positive_iff host4 env_4_8). reflexivity.
Defined.

(** C3 as stated fails: GUNICORN_THREADS=0 is accepted and gives a
    thread count of zero. *)
Lemma load_accepts_zero_threads :
  exists cfg, load host4 env_threads_0 = Returns cfg
              /\ threads cfg = 0
              /\ ~ (0 < workers cfg /\ 0 < threads cfg).
Proof.
  eexists. split; [reflexivity |]. split; [reflexivity |].
  intros [_ Hth]. vm_compute in Hth. discriminate.
Qed.

(** C4, amended: loading fails if and only if the CPU count cannot be
    determined or a provided GUNICORN_WORKERS or GUNICORN_THREADS value
    is one [int] refuses; there is no other error path. *)
Theorem load_raises_iff (h : Host) (environ : gmap string string) :
  raised (load h environ) <->
    os_cpu_count h = None
    \/ rejected h environ "GUNICORN_WORKERS"
    \/ rejected h environ "GUNICORN_THREADS".
Proof.
  rewrite (load_raises h environ 0), raised_cpu_count.
  by rewrite !raised_int_getenv.
Qed.

(** C4 as stated fails: with both variables set to numbers, loading
    still fails on a host whose CPU count is unknown. *)
Lemma load_raises_without_rejected_value :
  raised (load host_unknown_cpus env_4_8)
  /\ ~ (rejected host_unknown_cpus env_4_8 "GUNICORN_WORKERS"
        \/ rejected host_unknown_cpus env_4_8 "GUNICORN_THREADS").
Proof.
  split; [exact I |].
  intros [(v & Hv & Hr) | (v & Hv & Hr)];
    vm_compute in Hv; injection Hv as <-; exact Hr.
Qed.

(** Which exception leaves the module body. *)
Lemma load_exception (h : Host) (environ : gmap string string)
    (e : PyExc) :
  load h environ = Raises e ->
  (e = NotImplementedError /\ os_cpu_count h = None)
  \/ (e = ValueError /\ os_cpu_count h <> None).
Proof.
  unfold load, cpu_count, getenv.
  destruct (os_cpu_count h) as [n |]; simpl.
  2: { intros [= <-]. by left. }
  intros Hload. right. split; [| done]. revert Hload.
  destruct (environ !! "GUNICORN_WORKERS") as [vw |]; simpl.
  - destruct (int_of_str h vw) as [w | e'] eqn:Hw; simpl.
    + destruct (environ !! "GUNICORN_THREADS") as [vt |]; simpl;
        [| discriminate].
      destruct (int_of_str h vt) as [t | e''] eqn:Ht; simpl;
        [discriminate |].
      intros [= <-]. by apply (int_of_str_raises h vt).
    + intros [= <-]. by apply (int_of_str_raises h vw).
  - destruct (environ !! "GUNICORN_THREADS") as [vt |]; simpl;
      [| discriminate].
    destruct (int_of_str h vt) as [t | e''] eqn:Ht; simpl;
      [discriminate |].
    intros [= <-]. by apply (int_of_str_raises h vt).
Qed.

End Counts.

(** ** Fixed options and logging options *)

Section Options.

Local Open Scope string_scope.

(** C7: in every configuration that is loaded, whatever the
    environment, bind is "0.0.0.0:5000", backlog 2048,
    worker_connections 1000, timeout 30, keepalive 2,
    limit_request_line 4096, limit_request_fields 100 and
    limit_request_field_size 8190. *)
Theorem fixed_options (h : Host) (environ : gmap string string)
    (cfg : ServerConfig) :
  load h environ = Returns cfg ->
  bind cfg = "0.0.0.0:5000"
  /\ backlog cfg = 2048
  /\ worker_connections cfg = 1000
  /\ timeout cfg = 30
  /\ keepalive cfg = 2
  /\ limit_request_line cfg = 4096
  /\ limit_request_fields cfg = 100
  /\ limit_request_field_size cfg = 8190.
Proof.
  intros Hload.
  destruct (load_inv h environ cfg Hload) as (_ & _ & _ & _ & Hconst).
  unfold constant_options in Hconst. tauto.
Qed.

Lemma fixed_options_witness :
  exists cfg, load host4 env_4_8 = Returns cfg
    /\ bind cfg = "0.0.0.0:5000"
    /\ backlog cfg = 2048
    /\ worker_connections cfg = 1000
    /\ timeout cfg = 30
    /\ keepalive cfg = 2
    /\ limit_request_line cfg = 4096
    /\ limit_request_fields cfg = 100
    /\ limit_request_field_size cfg = 8190.
Proof.
  eexists. split; [reflexivity |].
  apply (fixed_options host4 env_4_8). reflexivity.
Defined.

(** C8: in every configuration that is loaded, the access log and the
    error log both have destination "-", that is standard output and
    standard error, the log level is "info", and the access-log format
    is one fixed text whose fields are, in order, client address,
    remote logname, user, timestamp, request line, status, bytes,
    referer and user agent. *)
Theorem logging_options (h : Host) (environ : gmap string string)
    (cfg : ServerConfig) :
  load h environ = Returns cfg ->
  accesslog cfg = "-" /\ AccessLog.access_sink (accesslog cfg) = AccessLog.Stdout
  /\ errorlog cfg = "-" /\ AccessLog.error_sink (errorlog cfg) = AccessLog.Stderr
  /\ loglevel cfg = "info"
  /\ access_log_format cfg =
       "%(h)s %(l)s %(u)s %(t)s " +:+ dq +:+ "%(r)s" +:+ dq
       +:+ " %(s)s %(b)s " +:+ dq +:+ "%(f)s" +:+ dq
       +:+ " " +:+ dq +:+ "%(a)s" +:+ dq
  /\ AccessLog.atoms (access_log_format cfg) =
       [ Some AccessLog.RemoteAddress; Some AccessLog.RemoteLogname;
         Some AccessLog.UserName; Some AccessLog.RequestDate;
         Some AccessLog.RequestLine; Some AccessLog.Status;
         Some AccessLog.ResponseLengthCLF; Some AccessLog.Referer;
         Some AccessLog.UserAgent ].
Proof.
  intros Hload.
  destruct (load_inv h environ cfg Hload) as (_ & _ & _ & _ & Hconst).
  unfold constant_options in Hconst.
  destruct Hconst as (_ & _ & _ & _ & _ & _ & _ & _ & _ & _ & _ & _ & _
                      & _ & _ & _ & Ha & He & Hl & Hf).
  rewrite Ha, He, Hl, Hf. repeat split; reflexivity.
Qed.

Lemma logging_options_witness :
  exists cfg, load host4 ∅ = Returns cfg
    /\ accesslog cfg = "-"
    /\ AccessLog.access_sink (accesslog cfg) = AccessLog.Stdout
    /\ errorlog cfg = "-"
    /\ AccessLog.error_sink (errorlog cfg) = AccessLog.Stderr
    /\ loglevel cfg = "info"
    /\ access_log_format cfg =
         "%(h)s %(l)s %(u)s %(t)s " +:+ dq +:+ "%(r)s" +:+ dq
         +:+ " %(s)s %(b)s " +:+ dq +:+ "%(f)s" +:+ dq
         +:+ " " +:+ dq +:+ "%(a)s" +:+ dq
    /\ AccessLog.atoms (access_log_format cfg) =
         [ Some AccessLog.RemoteAddress; Some AccessLog.RemoteLogname;
           Some AccessLog.UserName; Some AccessLog.RequestDate;
           Some AccessLog.RequestLine; Some AccessLog.Status;
           Some AccessLog.ResponseLengthCLF; Some AccessLog.Referer;
           Some AccessLog.UserAgent ].
Proof.
  eexists. split; [reflexivity |].
  apply (logging_options host4 ∅). reflexivity.
Defined.

End Options.

(** ** Lifecycle hooks *)

Section Hooks.

Local Open Scope string_scope.

Context {Server Worker L : Type}.
Context `{!HasLog Server L, !HasLog Worker L}.

(** Against the recording logger a body always runs to its end, and
    what gets written is the list of its calls. *)
Lemma run_recorder {E A : Type} (p : Hook L A) (written : list (LogCall L)) :
  run (E := E) recorder p written = inr (value p, (written ++ calls p)%list).
Proof.
  revert written. induction p as [a | c k IH]; intros written; simpl.
  - by rewrite app_nil_r.
  - rewrite IH. by rewrite <- app_assoc.
Qed.

(** A body that makes a single call hands the logger's answer on. *)
Lemma run_info {S E : Type} (impl : LoggerImpl L S E) (lg : L)
    (msg : string) (s : S) :
  run impl (info lg msg) s =
    match impl {| logger := lg; levelname := INFO; message := msg |} s with
    | inl e => inl e
    | inr s' => inr (tt, s')
    end.
Proof. reflexivity. Qed.

(** C5: for every server, the ready hook asks for exactly one log line,
    at level info, on the server's logger, and the text contains
    "ready to serve requests"; a logger that writes down what it is
    asked gains exactly that line. *)
Theorem when_ready_logs_once (server : Server) :
  exists line,
    calls (when_ready server) = [line]
    /\ logger line = log server
    /\ levelname line = INFO
    /\ (exists pre post,
          message line = pre +:+ "ready to serve requests" +:+ post)
    /\ forall (E : Type) written,
         run (E := E) recorder (when_ready server) written
         = inr (tt, (written ++ [line])%list).
Proof.
  eexists. split; [reflexivity |]. split; [reflexivity |].
  split; [reflexivity |]. split.
  - exists "FastFood Ordering System is ", EmptyString. reflexivity.
  - intros E written. reflexivity.
Qed.

(** C6: for every worker, the interrupt hook and the abort hook each
    ask for exactly one log line, and the two texts differ. *)
Theorem worker_hooks_log_once (worker : Worker) :
  exists line_int line_abort,
    calls (worker_int worker) = [line_int]
    /\ calls (worker_abort worker) = [line_abort]
    /\ message line_int <> message line_abort
    /\ line_int <> line_abort
    /\ forall (E : Type) written,
         run (E := E) recorder (worker_int worker) written
           = inr (tt, (written ++ [line_int])%list)
         /\ run (E := E) recorder (worker_abort worker) written
           = inr (tt, (written ++ [line_abort])%list).
Proof.
  eexists. eexists. split; [reflexivity |]. split; [reflexivity |].
  split; [simpl; discriminate |]. split; [intros [=] |].
  intros E written. split; reflexivity.
Qed.

(** C9: when the logger of the argument accepts an info call, each of
    the three hooks returns None and raises nothing, and the state it
    leaves is the one the logger produced: the hooks add no state of
    their own. *)
Theorem hooks_return_none {S E : Type} (impl : LoggerImpl L S E)
    (server : Server) (worker : Worker) (s : S) :
  accepts_info impl (log server) s ->
  accepts_info impl (log worker) s ->
  (exists line s', calls (when_ready server) = [line]
      /\ impl line s = inr s'
      /\ run impl (when_ready server) s = inr (tt, s'))
  /\ (exists line s', calls (worker_int worker) = [line]
      /\ impl line s = inr s'
      /\ run impl (worker_int worker) s = inr (tt, s'))
  /\ (exists line s', calls (worker_abort worker) = [line]
      /\ impl line s = inr s'
      /\ run impl (worker_abort worker) s = inr (tt, s')).
Proof.
  intros Hserver Hworker.
  repeat split.
  - destruct (Hserver
      "FastFood Ordering System is ready to serve requests") as [s' Hs'].
    eexists. exists s'. split; [reflexivity |]. split; [exact Hs' |].
    unfold when_ready. rewrite run_info. by rewrite Hs'.
  - destruct (Hworker "Worker received INT or QUIT signal") as [s' Hs'].
    eexists. exists s'. split; [reflexivity |]. split; [exact Hs' |].
    unfold worker_int. rewrite run_info. by rewrite Hs'.
  - destruct (Hworker "Worker received SIGABRT signal") as [s' Hs'].
    eexists. exists s'. split; [reflexivity |]. split; [exact Hs' |].
    unfold worker_abort. rewrite run_info. by rewrite Hs'.
Qed.

(** C10: the text each hook logs does not depend on its argument: for
    any two servers, and for any two workers, the texts handed to the
    logger are the same. *)
Theorem hook_text_independent (server1 server2 : Server)
    (worker1 worker2 : Worker) :
  message <$> calls (when_ready server1)
    = message <$> calls (when_ready server2)
  /\ message <$> calls (worker_int worker1)
     = message <$> calls (worker_int worker2)
  /\ message <$> calls (worker_abort worker1)
     = message <$> calls (worker_abort worker2).
Proof. repeat split; reflexivity. Qed.

End Hooks.

Lemma hooks_return_none_witness :
  (exists line s', calls (when_ready arbiter1) = [line]
      /\ recorder (E := PyExc) line [] = inr s'
      /\ run (E := PyExc) recorder (when_ready arbiter1) [] = inr (tt, s'))
  /\ (exists line s', calls (worker_int worker7) = [line]
      /\ recorder (E := PyExc) line [] = inr s'
      /\ run (E := PyExc) recorder (worker_int worker7) [] = inr (tt, s'))
  /\ (exists line s', calls (worker_abort worker7) = [line]
      /\ recorder (E := PyExc) line [] = inr s'
      /\ run (E := PyExc) recorder (worker_abort worker7) [] = inr (tt, s')).
Proof.
  apply (hooks_return_none (recorder (E := PyExc)) arbiter1 worker7 []).
  - intros msg. eexists. reflexivity.
  - intros msg. eexists. reflexivity.
Defined.

(** A logger that refuses the call makes the hook raise. *)
Lemma when_ready_refused (e : PyExc) :
  run (S := unit) (refuser e) (when_ready arbiter1) tt = inl e.
Proof. reflexivity. Qed.

(** ** More on the conversion of the two variables *)

Section Conversion.

Local Open Scope string_scope.

(** The characters of a decimal rendering are digits: no white space,
    no sign, no underscore. *)
Lemma pretty_N_char_digit (y : N) :
  (y < 10)%N ->
  isspace (pretty_N_char y) = false
  /\ is_underscore (pretty_N_char y) = false
  /\ digit_value (pretty_N_char y) = Some (Z.of_N y)
  /\ (ord (pretty_N_char y) =? 43)%Z = false
  /\ (ord (pretty_N_char y) =? 45)%Z = false.
Proof.
  intros Hy.
  assert (Hcases : (y = 0 \/ y = 1 \/ y = 2 \/ y = 3 \/ y = 4 \/ y = 5
                    \/ y = 6 \/ y = 7 \/ y = 8 \/ y = 9)%N) by lia.
  repeat destruct Hcases as [-> | Hcases]; try subst y;
    repeat split; reflexivity.
Qed.

(** Scanning the digits of [x] written in front of [s] leaves the
    scanner at [s] with value [x]; the number [k] of digits read is
    that of [x]. *)
Lemma scan_pretty_N_go (x : N) :
  exists k : N,
    (forall s, scan_digits (pretty_N_go x s) 0 0%N false
               = scan_digits s (Z.of_N x) k false)
    /\ ((0 < x)%N -> (0 < k)%N /\ (10 ^ k <= 10 * x)%N)
    /\ (x = 0%N -> k = 0%N).
Proof.
  induction (N.lt_wf_0 x) as [x _ IH].
  destruct (decide (x = 0%N)) as [-> | Hx].
  { exists 0%N. split; [intros s; by rewrite pretty_N_go_0 |].
    split; [lia | done]. }
  assert (Hpos : (0 < x)%N) by lia.
  destruct (IH (x `div` 10)%N) as (k & Hscan & Hbound & Hzero).
  { by apply N.div_lt. }
  assert (Hmod : (x `mod` 10 < 10)%N) by (apply N.mod_lt; lia).
  destruct (pretty_N_char_digit _ Hmod) as (_ & Hus & Hdig & _ & _).
  exists (k + 1)%N. split; [| split; [| lia]].
  - intros s. rewrite pretty_N_go_step by done. rewrite Hscan. simpl.
    rewrite Hus, Hdig. f_equal.
    pose proof (N.div_mod x 10 ltac:(lia)) as Hdm. lia.
  - intros _. split; [lia |].
    pose proof (N.div_mod x 10 ltac:(lia)) as Hdm.
    destruct (decide (x `div` 10 = 0)%N) as [Hq | Hq].
    + rewrite (Hzero Hq). simpl. lia.
    + destruct Hbound as [_ Hb]; [lia |].
      rewrite N.pow_add_r, N.pow_1_r.
      generalize dependent (10 ^ k)%N. intros P HP.
      generalize dependent (x `div` 10)%N. intros q _ _ Hdm _ HP.
      set (r := (x `mod` 10)%N) in *. clearbody r. lia.
Qed.

(** The rendering of a number above zero starts with a digit. *)
Lemma pretty_N_go_head (x : N) (s : string) :
  (0 < x)%N ->
  exists y rest, (y < 10)%N /\ pretty_N_go x s = String (pretty_N_char y) rest.
Proof.
  revert s. induction (N.lt_wf_0 x) as [x _ IH]. intros s Hpos.
  rewrite pretty_N_go_step by done.
  destruct (decide (x `div` 10 = 0)%N) as [Hq | Hq].
  - rewrite Hq, pretty_N_go_0. exists (x `mod` 10)%N. eexists.
    split; [apply N.mod_lt; lia | reflexivity].
  - apply IH; [by apply N.div_lt | by apply N.neq_0_lt_0].
Qed.

(** [int] reads back the decimal rendering of a number above zero, with
    or without a minus sign in front, as long as the digit cap is not
    hit. *)
Lemma int_of_str_pretty_N_go (h : Host) (x : N) :
  (0 < x)%N -> (x < 10 ^ 640)%N ->
  int_of_str h (pretty_N_go x EmptyString) = Returns (Z.of_N x)
  /\ int_of_str h (String "-" (pretty_N_go x EmptyString))
     = Returns (- Z.of_N x).
Proof.
  intros Hpos Hsmall.
  destruct (scan_pretty_N_go x) as (k & Hscan & Hbound & _).
  destruct (Hbound Hpos) as [Hk Hpow].
  destruct (pretty_N_go_head x EmptyString Hpos) as (y & rest & Hy & Hhead).
  destruct (pretty_N_char_digit _ Hy) as (Hsp & Hus & _ & Hplus & Hminus).
  assert (Hk640 : (k <= 640)%N).
  { assert (Hlt : (10 ^ k < 10 ^ 641)%N).
    { replace 641%N with (640 + 1)%N by reflexivity.
      rewrite (N.pow_add_r 10 640 1), N.pow_1_r. lia. }
    apply N.pow_lt_mono_r_iff in Hlt; lia. }
  assert (Hlimit : exceeds_limit h k = false).
  { unfold exceeds_limit.
    replace (640 <? k)%N with false; [reflexivity |].
    symmetry. apply N.ltb_ge. exact Hk640. }
  assert (Hk0 : (k =? 0)%N = false) by (apply N.eqb_neq; lia).
  specialize (Hscan EmptyString). simpl in Hscan.
  assert (Hskip : skip_space (pretty_N_go x EmptyString)
                  = pretty_N_go x EmptyString).
  { rewrite Hhead. simpl. by rewrite Hsp. }
  assert (Hsign : split_sign (pretty_N_go x EmptyString)
                  = (1, pretty_N_go x EmptyString)).
  { rewrite Hhead. simpl. by rewrite Hplus, Hminus. }
  assert (Hstart : starts_with_underscore (pretty_N_go x EmptyString)
                   = false).
  { rewrite Hhead. exact Hus. }
  clear Hhead. generalize dependent (pretty_N_go x EmptyString).
  intros body Hscan Hskip Hsign Hstart.
  split.
  - unfold int_of_str. rewrite Hskip, Hsign, Hstart, Hscan, Hk0, Hlimit.
    simpl. f_equal. by destruct (Z.of_N x).
  - unfold int_of_str.
    change (skip_space (String "-" body)) with (String "-" body).
    change (split_sign (String "-" body)) with ((-1), body).
    cbv beta iota. rewrite Hstart, Hscan, Hk0, Hlimit.
    simpl. f_equal; lia.
Qed.

(** [int] reads back the decimal rendering of every integer below the
    digit cap. *)
Lemma int_of_str_pretty (h : Host) (z : Z) :
  Z.abs z < 10 ^ 640 -> int_of_str h (pretty z) = Returns z.
Proof.
  intros Hsmall. destruct z as [| p | p].
  - reflexivity.
  - assert (Hn : (N.pos p < 10 ^ 640)%N).
    { apply N2Z.inj_lt. rewrite N2Z.inj_pow. exact Hsmall. }
    destruct (int_of_str_pretty_N_go h (N.pos p)) as [Hplain _];
      [lia | exact Hn |].
    exact Hplain.
  - assert (Hn : (N.pos p < 10 ^ 640)%N).
    { apply N2Z.inj_lt. rewrite N2Z.inj_pow. exact Hsmall. }
    destruct (int_of_str_pretty_N_go h (N.pos p)) as [_ Hminus];
      [lia | exact Hn |].
    exact Hminus.
Qed.

End Conversion.

(** ** White space around a value *)

Section White_space.

Local Open Scope string_scope.

(** A white-space character is neither an underscore nor a digit. *)
Lemma isspace_plain (c : ascii) :
  isspace c = true -> is_underscore c = false /\ digit_value c = None.
Proof.
  destruct c as [[] [] [] [] [] [] [] []]; intros Hc;
    first [discriminate Hc | split; reflexivity].
Qed.

Lemma skip_space_all_space (s : string) :
  all_space s = true -> skip_space s = EmptyString.
Proof.
  induction s as [| c s IH]; simpl; [done |].
  intros [Hc Hs]%andb_true_iff. rewrite Hc. by apply IH.
Qed.

Lemma skip_space_app_l (l x : string) :
  all_space l = true -> skip_space (l +:+ x) = skip_space x.
Proof.
  induction l as [| c l IH]; simpl; [done |].
  intros [Hc Hl]%andb_true_iff. rewrite Hc. by apply IH.
Qed.

Lemma skip_space_app_r (x r : string) :
  all_space r = true ->
  skip_space (x +:+ r) =
    match skip_space x with
    | EmptyString => EmptyString
    | String c y => String c y +:+ r
    end.
Proof.
  intros Hr. induction x as [| c x IH]; simpl.
  - by apply skip_space_all_space.
  - destruct (isspace c); [exact IH | reflexivity].
Qed.

Lemma starts_with_underscore_app (body r : string) :
  all_space r = true ->
  starts_with_underscore (body +:+ r) = starts_with_underscore body.
Proof.
  intros Hr. destruct body as [| c body]; simpl; [| reflexivity].
  destruct r as [| c r]; simpl in *; [reflexivity |].
  apply andb_true_iff in Hr as [Hc _]. by apply isspace_plain.
Qed.

(** White space behind a text does not change what the digit scanner
    reads; it only stays in the rest. *)
Lemma scan_digits_app (body r : string) (acc : Z) (digits : N)
    (prev_us : bool) :
  all_space r = true ->
  scan_digits (body +:+ r) acc digits prev_us =
    match scan_digits body acc digits prev_us with
    | Some (v, k, rest) => Some (v, k, rest +:+ r)
    | None => None
    end.
Proof.
  intros Hr. revert acc digits prev_us.
  induction body as [| c body IH]; intros acc digits prev_us; simpl.
  - destruct r as [| c r]; simpl in *; [by destruct prev_us |].
    apply andb_true_iff in Hr as [Hc _].
    destruct (isspace_plain c Hc) as [-> ->]. by destruct prev_us.
  - destruct (is_underscore c).
    + destruct prev_us; [reflexivity | apply IH].
    + destruct (digit_value c); [apply IH |]. by destruct prev_us.
Qed.

Lemma split_sign_app (c : ascii) (y r : string) :
  split_sign (String c y +:+ r) =
    (fst (split_sign (String c y)), snd (split_sign (String c y)) +:+ r).
Proof.
  simpl. destruct (ord c =? 43)%Z; [reflexivity |].
  destruct (ord c =? 45)%Z; reflexivity.
Qed.

(** [int] ignores white space in front of and behind the text. *)
Lemma int_of_str_padded (h : Host) (l s r : string) :
  all_space l = true -> all_space r = true ->
  int_of_str h (l +:+ s +:+ r) = int_of_str h s.
Proof.
  intros Hl Hr. unfold int_of_str.
  rewrite (skip_space_app_l _ _ Hl), (skip_space_app_r _ _ Hr).
  destruct (skip_space s) as [| c y]; [reflexivity |].
  rewrite split_sign_app.
  destruct (split_sign (String c y)) as [sign body]. simpl fst. simpl snd.
  rewrite (starts_with_underscore_app _ _ Hr).
  destruct (starts_with_underscore body); [reflexivity |].
  rewrite (scan_digits_app _ _ _ _ _ Hr).
  destruct (scan_digits body 0 0%N false) as [[[v k] rest] |];
    [| reflexivity].
  destruct (k =? 0)%N; [reflexivity |].
  destruct (exceeds_limit h k); [reflexivity |].
  rewrite (skip_space_app_r _ _ Hr).
  by destruct (skip_space rest).
Qed.

(** Empty or blank text is refused. *)
Lemma int_of_str_blank (h : Host) (s : string) :
  all_space s = true -> int_of_str h s = Raises ValueError.
Proof.
  intros Hs. unfold int_of_str. by rewrite (skip_space_all_space _ Hs).
Qed.

End White_space.

(** ** More on the loader *)

Section Loader_more.

Local Open Scope string_scope.

(** The environment reaches the outcome only through what [int] makes of
    the two look-ups. *)
Lemma load_ext (h : Host) (environ1 environ2 : gmap string string) :
  (forall d, int h (getenv environ1 "GUNICORN_WORKERS" d)
             = int h (getenv environ2 "GUNICORN_WORKERS" d)) ->
  (forall d, int h (getenv environ1 "GUNICORN_THREADS" d)
             = int h (getenv environ2 "GUNICORN_THREADS" d)) ->
  load h environ1 = load h environ2.
Proof.
  intros HW HT. unfold load.
  destruct (cpu_count h) as [ncpu | e]; simpl; [| reflexivity].
  by rewrite HW, HT.
Qed.

(** X1: every loaded configuration, whatever the host and the
    environment, has worker_class "gthread", proc_name
    "fastfood_gunicorn", daemon False, umask 0, and None for pidfile,
    user, group and tmp_upload_dir. *)
Theorem remaining_options (h : Host) (environ : gmap string string)
    (cfg : ServerConfig) :
  load h environ = Returns cfg ->
  worker_class cfg = "gthread"
  /\ proc_name cfg = "fastfood_gunicorn"
  /\ daemon cfg = false
  /\ pidfile cfg = None
  /\ umask cfg = 0
  /\ user cfg = None
  /\ group cfg = None
  /\ tmp_upload_dir cfg = None.
Proof.
  intros Hload.
  destruct (load_inv h environ cfg Hload) as (_ & _ & _ & _ & Hconst).
  unfold constant_options in Hconst. tauto.
Qed.

Lemma remaining_options_witness :
  exists cfg, load host4 env_threads_0 = Returns cfg
    /\ worker_class cfg = "gthread"
    /\ proc_name cfg = "fastfood_gunicorn"
    /\ daemon cfg = false
    /\ pidfile cfg = None
    /\ umask cfg = 0
    /\ user cfg = None
    /\ group cfg = None
    /\ tmp_upload_dir cfg = None.
Proof.
  eexists. split; [reflexivity |].
  apply (remaining_options host4 env_threads_0). reflexivity.
Defined.



(** On a host with a known CPU count a refused value stops loading
    with ValueError. *)
Lemma load_value_error (h : Host) (environ : gmap string string) :
  os_cpu_count h <> None ->
  rejected h environ "GUNICORN_WORKERS"
  \/ rejected h environ "GUNICORN_THREADS" ->
  load h environ = Raises ValueError.
Proof.
  intros Hc Hrej.
  assert (Hr : raised (load h environ)).
  { apply (load_raises h environ 0). right.
    destruct Hrej as [Hrej | Hrej]; [left | right];
      by apply raised_int_getenv. }
  destruct (load h environ) as [cfg | e] eqn:Hload; [destruct Hr |].
  destruct (load_exception h environ e Hload) as [[_ Hn] | [-> _]];
    [done | reflexivity].
Qed.

(** X3: the exception that stops loading tells the cause.  It is
    NotImplementedError exactly when the CPU count cannot be determined,
    whatever the environment holds; it is ValueError exactly when the
    CPU count is known and a provided value is refused by [int]. *)
Theorem load_exception_kind (h : Host) (environ : gmap string string) :
  (load h environ = Raises NotImplementedError <-> os_cpu_count h = None)
  /\ (load h environ = Raises ValueError <->
        os_cpu_count h <> None
        /\ (rejected h environ "GUNICORN_WORKERS"
            \/ rejected h environ "GUNICORN_THREADS")).
Proof.
  split; split.
  - intros Hload.
    destruct (load_exception h environ _ Hload) as [[_ Hc] | [? _]];
      [exact Hc | discriminate].
  - intros Hc. unfold load, cpu_count. by rewrite Hc.
  - intros Hload.
    destruct (load_exception h environ _ Hload) as [[? _] | [_ Hc]];
      [discriminate |].
    split; [exact Hc |].
    assert (Hr : raised (load h environ)) by (by rewrite Hload).
    apply (load_raises h environ 0) in Hr as [Hr | [Hr | Hr]].
    + apply raised_cpu_count in Hr. done.
    + left. by apply (raised_int_getenv h environ _ 0).
    + right. by apply (raised_int_getenv h environ _ 2).
  - intros [Hc Hrej]. by apply load_value_error.
Qed.

(** X4: with only GUNICORN_WORKERS set, to a text [int] converts,
    workers is the converted integer and threads keeps its default 2. *)
Theorem load_workers_only (h : Host) (environ : gmap string string)
    (ncpus : positive) (vw : string) (w : Z) :
  os_cpu_count h = Some ncpus ->
  environ !! "GUNICORN_WORKERS" = Some vw ->
  environ !! "GUNICORN_THREADS" = None ->
  int_of_str h vw = Returns w ->
  exists cfg, load h environ = Returns cfg
              /\ workers cfg = w /\ threads cfg = 2.
Proof.
  intros Hc Hw Ht Hiw.
  apply (load_returns h environ (Z.pos ncpus)).
  - unfold cpu_count. by rewrite Hc.
  - by rewrite (getenv_set _ _ _ _ Hw).
  - by rewrite (getenv_unset _ _ _ Ht).
Qed.

Lemma load_workers_only_witness :
  exists cfg, load host4 {[ "GUNICORN_WORKERS" := " 1_6 " ]} = Returns cfg
              /\ workers cfg = 16 /\ threads cfg = 2.
Proof.
  apply (load_workers_only host4 {[ "GUNICORN_WORKERS" := " 1_6 " ]}
           4%positive " 1_6 " 16); reflexivity.
Defined.

(** X5: with only GUNICORN_THREADS set, to a text [int] converts,
    threads is the converted integer and workers keeps its default,
    twice the CPU count plus one. *)
Theorem load_threads_only (h : Host) (environ : gmap string string)
    (ncpus : positive) (vt : string) (t : Z) :
  os_cpu_count h = Some ncpus ->
  environ !! "GUNICORN_WORKERS" = None ->
  environ !! "GUNICORN_THREADS" = Some vt ->
  int_of_str h vt = Returns t ->
  exists cfg, load h environ = Returns cfg
              /\ workers cfg = 2 * Z.pos ncpus + 1 /\ threads cfg = t.
Proof.
  intros Hc Hw Ht Hit.
  destruct (load_returns h environ (Z.pos ncpus) (Z.pos ncpus * 2 + 1) t)
    as (cfg & Hload & Hwk & Hth).
  - unfold cpu_count. by rewrite Hc.
  - by rewrite (getenv_unset _ _ _ Hw).
  - by rewrite (getenv_set _ _ _ _ Ht).
  - exists cfg. split; [exact Hload |]. split; [lia | exact Hth].
Qed.

Lemma load_threads_only_witness :
  exists cfg, load host4 env_threads_0 = Returns cfg
              /\ workers cfg = 9 /\ threads cfg = 0.
Proof.
  apply (load_threads_only host4 env_threads_0 4%positive "0" 0);
    reflexivity.
Defined.

(** X6: when GUNICORN_WORKERS is not set, the worker count of a loaded
    configuration is odd and at least 3. *)
Theorem default_workers_odd (h : Host) (environ : gmap string string)
    (cfg : ServerConfig) :
  load h environ = Returns cfg ->
  environ !! "GUNICORN_WORKERS" = None ->
  3 <= workers cfg /\ Z.odd (workers cfg) = true.
Proof.
  intros Hload Hw.
  destruct (load_inv h environ cfg Hload) as (ncpu & Hc & Hwk & _).
  rewrite (getenv_unset _ _ _ Hw) in Hwk. simpl in Hwk.
  injection Hwk as <-.
  unfold cpu_count in Hc. destruct (os_cpu_count h) as [n |];
    [| discriminate].
  injection Hc as <-. split; [lia |].
  rewrite Z.add_comm, Z.mul_comm. by rewrite Z.odd_add_mul_2.
Qed.

Lemma default_workers_odd_witness :
  exists cfg, load host4 env_threads_0 = Returns cfg
              /\ 3 <= workers cfg /\ Z.odd (workers cfg) = true.
Proof.
  eexists. split; [reflexivity |].
  apply (default_workers_odd host4 env_threads_0); reflexivity.
Defined.

(** X7: the decimal text of any integers w and t of fewer than 641
    digits, put in GUNICORN_WORKERS and GUNICORN_THREADS, is read back
    exactly: workers is w and threads is t, also when they are zero or
    negative. *)
Theorem load_reads_decimal (h : Host) (environ : gmap string string)
    (ncpus : positive) (w t : Z) :
  os_cpu_count h = Some ncpus ->
  environ !! "GUNICORN_WORKERS" = Some (pretty w) ->
  environ !! "GUNICORN_THREADS" = Some (pretty t) ->
  Z.abs w < 10 ^ 640 ->
  Z.abs t < 10 ^ 640 ->
  exists cfg, load h environ = Returns cfg
              /\ workers cfg = w /\ threads cfg = t.
Proof.
  intros Hc Hw Ht Hwsmall Htsmall.
  apply (load_returns h environ (Z.pos ncpus)).
  - unfold cpu_count. by rewrite Hc.
  - rewrite (getenv_set _ _ _ _ Hw). by apply int_of_str_pretty.
  - rewrite (getenv_set _ _ _ _ Ht). by apply int_of_str_pretty.
Qed.

Lemma load_reads_decimal_witness :
  exists cfg,
    load host4 {[ "GUNICORN_WORKERS" := "12"; "GUNICORN_THREADS" := "-3" ]}
      = Returns cfg
    /\ workers cfg = 12 /\ threads cfg = -3.
Proof.
  apply (load_reads_decimal host4
           {[ "GUNICORN_WORKERS" := "12"; "GUNICORN_THREADS" := "-3" ]}
           4%positive 12 (-3)); reflexivity.
Defined.

(** X8: a variable that is set but empty, or holds only white space,
    does not fall back to the default: on a host with a known CPU count
    loading stops with ValueError. *)
Theorem load_blank_value (h : Host) (environ : gmap string string)
    (ncpus : positive) (key value : string) :
  os_cpu_count h = Some ncpus ->
  key = "GUNICORN_WORKERS" \/ key = "GUNICORN_THREADS" ->
  environ !! key = Some value ->
  all_space value = true ->
  load h environ = Raises ValueError.
Proof.
  intros Hc Hkey Hv Hblank.
  apply load_value_error; [by rewrite Hc |].
  assert (Hrej : rejected h environ key).
  { exists value. split; [exact Hv |].
    by rewrite (int_of_str_blank h value Hblank). }
  destruct Hkey as [-> | ->]; [by left | by right].
Qed.

Lemma load_blank_value_witness :
  load host4 {[ "GUNICORN_THREADS" := EmptyString ]} = Raises ValueError.
Proof.
  apply (load_blank_value host4 {[ "GUNICORN_THREADS" := EmptyString ]}
           4%positive "GUNICORN_THREADS" EmptyString);
    first [reflexivity | right; reflexivity].
Defined.

(** X9: white space in front of and behind the value of either variable
    makes no difference to loading. *)
Theorem load_ignores_padding (h : Host) (environ : gmap string string)
    (key l value r : string) :
  key = "GUNICORN_WORKERS" \/ key = "GUNICORN_THREADS" ->
  all_space l = true ->
  all_space r = true ->
  load h (<[key := l +:+ value +:+ r]> environ)
  = load h (<[key := value]> environ).
Proof.
  intros Hkey Hl Hr.
  apply load_ext; intros d; unfold getenv;
    destruct Hkey as [-> | ->];
    rewrite ?lookup_insert_eq, ?lookup_insert_ne by done;
    simpl; first [by apply int_of_str_padded | reflexivity].
Qed.

Lemma load_ignores_padding_witness :
  load host4 (<["GUNICORN_WORKERS" := "  " +:+ "4" +:+ " "]> env_4_8)
  = load host4 (<["GUNICORN_WORKERS" := "4"]> env_4_8).
Proof.
  apply (load_ignores_padding host4 env_4_8 "GUNICORN_WORKERS" "  " "4" " ");
    first [reflexivity | left; reflexivity].
Defined.

End Loader_more.

(** ** More on the hooks *)

Section Hooks_more.

Local Open Scope string_scope.

Context {Server Worker L : Type}.
Context `{!HasLog Server L, !HasLog Worker L}.

(** X10: a hook raises exactly when the logger refuses its one call, and
    then it raises the logger's own error: the hooks catch nothing and
    add no error of their own. *)
Theorem hooks_pass_errors_on {S E : Type} (impl : LoggerImpl L S E)
    (server : Server) (worker : Worker) (s : S) (e : E) :
  (run impl (when_ready server) s = inl e <->
     exists line, calls (when_ready server) = [line] /\ impl line s = inl e)
  /\ (run impl (worker_int worker) s = inl e <->
        exists line, calls (worker_int worker) = [line]
                     /\ impl line s = inl e)
  /\ (run impl (worker_abort worker) s = inl e <->
        exists line, calls (worker_abort worker) = [line]
                     /\ impl line s = inl e).
Proof.
  unfold when_ready, worker_int, worker_abort.
  repeat split; rewrite run_info; simpl.
  - intros Hrun. eexists. split; [reflexivity |].
    by destruct (impl _ s) as [e' |]; [injection Hrun as -> |].
  - intros (line & [= <-] & Himpl). by rewrite Himpl.
  - intros Hrun. eexists. split; [reflexivity |].
    by destruct (impl _ s) as [e' |]; [injection Hrun as -> |].
  - intros (line & [= <-] & Himpl). by rewrite Himpl.
  - intros Hrun. eexists. split; [reflexivity |].
    by destruct (impl _ s) as [e' |]; [injection Hrun as -> |].
  - intros (line & [= <-] & Himpl). by rewrite Himpl.
Qed.

Context `{Countable L}.

(** One info call against the per-logger books. *)
Lemma run_info_keeper {E : Type} (lg : L) (msg : string)
    (books : gmap L (list (Level * string))) :
  run (E := E) keeper (info lg msg) books
  = inr (tt, <[lg := (default [] (books !! lg) ++ [(INFO, msg)])%list]>
               books).
Proof. reflexivity. Qed.

(** X11: in a logging system that keeps a book per logger, each hook
    adds one info line to the book of its own argument's logger and
    leaves the book of every other logger as it was. *)
Theorem hooks_write_own_book {E : Type} (server : Server) (worker : Worker)
    (books : gmap L (list (Level * string))) :
  (exists books',
     run (E := E) keeper (when_ready server) books = inr (tt, books')
     /\ books' !! log server
        = Some (default [] (books !! log server)
                ++ [(INFO,
                     "FastFood Ordering System is ready to serve requests")]
               )%list
     /\ forall lg, lg <> log server -> books' !! lg = books !! lg)
  /\ (exists books',
        run (E := E) keeper (worker_int worker) books = inr (tt, books')
        /\ books' !! log worker
           = Some (default [] (books !! log worker)
                   ++ [(INFO, "Worker received INT or QUIT signal")])%list
        /\ forall lg, lg <> log worker -> books' !! lg = books !! lg)
  /\ (exists books',
        run (E := E) keeper (worker_abort worker) books = inr (tt, books')
        /\ books' !! log worker
           = Some (default [] (books !! log worker)
                   ++ [(INFO, "Worker received SIGABRT signal")])%list
        /\ forall lg, lg <> log worker -> books' !! lg = books !! lg).
Proof.
  unfold when_ready, worker_int, worker_abort.
  repeat split; eexists; (split; [apply run_info_keeper |]);
    (split; [apply lookup_insert_eq |]);
    intros lg Hne; by apply lookup_insert_ne.
Qed.

(** X12: when the server and the worker share one logger, the ready
    hook, the interrupt hook and the abort hook run one after the other
    leave their three lines in that order at the end of the shared
    book, and no other book changes. *)
Theorem hooks_in_sequence {E : Type} (server : Server) (worker : Worker)
    (books : gmap L (list (Level * string))) :
  log worker = log server ->
  exists books1 books2 books3,
    run (E := E) keeper (when_ready server) books = inr (tt, books1)
    /\ run (E := E) keeper (worker_int worker) books1 = inr (tt, books2)
    /\ run (E := E) keeper (worker_abort worker) books2 = inr (tt, books3)
    /\ books3 !! log server
       = Some (default [] (books !! log server)
               ++ [ (INFO,
                     "FastFood Ordering System is ready to serve requests");
                    (INFO, "Worker received INT or QUIT signal");
                    (INFO, "Worker received SIGABRT signal") ])%list
    /\ forall lg, lg <> log server -> books3 !! lg = books !! lg.
Proof.
  intros Hshared. unfold when_ready, worker_int, worker_abort.
  rewrite Hshared. do 3 eexists.
  split; [apply run_info_keeper |].
  split; [apply run_info_keeper |].
  split; [apply run_info_keeper |].
  split.
  - rewrite !lookup_insert_eq. simpl. by rewrite <- !app_assoc.
  - intros lg Hne. by rewrite !lookup_insert_ne.
Qed.

End Hooks_more.

Lemma hooks_in_sequence_witness :
  exists books1 books2 books3,
    run (E := PyExc) keeper (when_ready arbiter1) ∅ = inr (tt, books1)
    /\ run (E := PyExc) keeper (worker_int worker7) books1
       = inr (tt, books2)
    /\ run (E := PyExc) keeper (worker_abort worker7) books2
       = inr (tt, books3)
    /\ books3 !! log arbiter1
       = Some (default [] ((∅ : gmap string (list (Level * string)))
                           !! log arbiter1)
               ++ [ (INFO,
                     "FastFood Ordering System is ready to serve requests"
                     %string);
                    (INFO, "Worker received INT or QUIT signal"%string);
                    (INFO, "Worker received SIGABRT signal"%string) ])%list
    /\ forall lg, lg <> log arbiter1 ->
         books3 !! lg = (∅ : gmap string (list (Level * string))) !! lg.
Proof.
  apply (hooks_in_sequence (E := PyExc) arbiter1 worker7 ∅). reflexivity.
Defined.
